(** * IO::Pty::HalfDuplex, sysctl back end: [iphd_sysctl_is_waiting]

    A shallow embedding of [src/sysctl.c].  The file has one function: it asks
    the kernel, through [sysctl(3)], for the [struct kinfo_proc] of one process
    and answers whether that process sleeps on the wait channel ["ttyin"].

    What the C file takes from system headers is left open here: the three
    selector constants, the size of [struct kinfo_proc] and the place of the
    two fields that are read.  The kernel is a transition function on an
    abstract kernel state.  The automatic variable [kip] is never initialised
    by the C code, so its bytes at function entry are an input of the model. *)

From Stdlib Require Import ZArith List Ascii String Bool Lia.
Import ListNotations.
Local Open Scope Z_scope.

(** ** C values *)

(** [char] objects are bytes; [int] values are integers. *)
Definition NUL : ascii := Ascii.zero.

Definition uchar (c : ascii) : Z := Z.of_N (N_of_ascii c).

(** A string literal: its characters followed by the terminating NUL. *)
Definition literal (s : string) : list ascii := list_ascii_of_string s ++ [NUL].

(** [a == b] on characters, an [int] that is 0 or 1. *)
Definition c_eq (a b : ascii) : Z := if Ascii.eqb a b then 1 else 0.

(** [!v]. *)
Definition c_not (v : Z) : Z := if v =? 0 then 1 else 0.

(** [a && b]: [b] is evaluated only when [a] is not 0.  [None] is a read
    outside the object the pointer points into. *)
Definition c_and (a b : option Z) : option Z :=
  match a with
  | None => None
  | Some va =>
      if va =? 0 then Some 0
      else match b with
           | None => None
           | Some vb => Some (if vb =? 0 then 0 else 1)
           end
  end.

(** [strcmp(s1, s2)], each argument given as the memory from the pointer to
    the end of its object.  Characters are compared as [unsigned char]; the
    scan stops at the first difference or after a common NUL. *)
Fixpoint strcmp (s1 s2 : list ascii) : option Z :=
  match s1, s2 with
  | c1 :: r1, c2 :: r2 =>
      if Ascii.eqb c1 c2
      then if Ascii.eqb c1 NUL then Some 0 else strcmp r1 r2
      else Some (uchar c1 - uchar c2)
  | _, _ => None
  end.

(** The C string held in a character array: the characters before the first
    NUL (all of them when there is none). *)
Fixpoint c_str (a : list ascii) : list ascii :=
  match a with
  | [] => []
  | c :: r => if Ascii.eqb c NUL then [] else c :: c_str r
  end.

(** ** The kernel facility *)

(** What [sysctl] hands to the kernel: the selector, the capacity of the old
    value buffer ([*oldlenp] at entry) and the new value, [None] for a null
    [newp]. *)
Record sysctl_req : Type := {
  rq_name : list Z;
  rq_namelen : Z;
  rq_oldlen : Z;
  rq_newp : option (list ascii);
  rq_newlen : Z
}.

(** What comes back: the return code, the bytes copied out to [oldp] and the
    length stored through [oldlenp]. *)
Record sysctl_reply : Type := {
  rp_ret : Z;
  rp_data : list ascii;
  rp_oldlen : Z
}.

(** Bytes copied out overwrite the front of the buffer; what lies behind them
    keeps its previous contents.  The buffer does not grow. *)
Definition copyout (data buf : list ascii) : list ascii :=
  firstn (List.length buf) (data ++ skipn (List.length data) buf).

(** ** Sample platform and sample kernels

    Concrete values to run the model on: a small layout of
    [struct kinfo_proc] and two kernels over a process table. *)

Module Sample.

Definition CTL_KERN : Z := 1.
Definition KERN_PROC : Z := 14.
Definition KERN_PROC_PID : Z := 1.

Definition sizeof_kinfo_proc : nat := 16.
Definition off_ki_stat : nat := 2.
Definition off_ki_wmesg : nat := 4.
Definition WMESGLEN : nat := 8.

(** The image of a [struct kinfo_proc] in this layout. *)
Definition kinfo_image (stat : ascii) (wmesg : string) : list ascii :=
  [NUL; NUL; stat; NUL]
    ++ firstn (WMESGLEN + 1)
         (list_ascii_of_string wmesg ++ repeat NUL (WMESGLEN + 1))
    ++ [NUL; NUL; NUL].

(** Kernel state: the process table, process identifier to image. *)
Definition ptable : Type := list (Z * list ascii).

Fixpoint pfind (pid : Z) (t : ptable) : option (list ascii) :=
  match t with
  | [] => None
  | (p, img) :: r => if p =? pid then Some img else pfind pid r
  end.

Definition failure (code : Z) : sysctl_reply :=
  {| rp_ret := code; rp_data := []; rp_oldlen := 0 |}.

Definition answer (img : list ascii) : sysctl_reply :=
  {| rp_ret := 0; rp_data := img; rp_oldlen := Z.of_nat (List.length img) |}.

(** A kernel that fails with -1 when the process does not exist, and that
    stores a new value when the request carries one. *)
Definition strict_kernel (t : ptable) (rq : sysctl_req)
  : sysctl_reply * ptable :=
  match rq_name rq with
  | [_; _; _; pid] =>
      match pfind pid t with
      | None => (failure (-1), t)
      | Some img =>
          match rq_newp rq with
          | None => (answer img, t)
          | Some v => (answer img, (pid, v) :: t)
          end
      end
  | _ => (failure (-1), t)
  end.

(** A kernel that reports success and copies nothing out when the process
    does not exist. *)
Definition lenient_kernel (t : ptable) (rq : sysctl_req)
  : sysctl_reply * ptable :=
  match rq_name rq with
  | [_; _; _; pid] =>
      match pfind pid t with
      | None => (answer [], t)
      | Some img => (answer img, t)
      end
  | _ => (failure (-1), t)
  end.

Definition zeros : list ascii := repeat NUL sizeof_kinfo_proc.

End Sample.

Section Probe.

(** Kernel state and the kernel's handling of one request. *)
Variable K : Type.
Variable kernel : K -> sysctl_req -> sysctl_reply * K.

(** From [<sys/sysctl.h>]. *)
Variables CTL_KERN KERN_PROC KERN_PROC_PID : Z.

(** From [<sys/user.h>] and [<sys/param.h>]: [sizeof(struct kinfo_proc)],
    the offsets of [char ki_stat] and [char ki_wmesg[WMESGLEN + 1]]. *)
Variables sizeof_kinfo_proc off_ki_stat off_ki_wmesg WMESGLEN : nat.

(** [sysctl(name, namelen, oldp, oldlenp, newp, newlen)]: the buffer behind
    [oldp] and the length behind [oldlenp] go in and come out.  The kernel
    copies out no more than the capacity it was given. *)
Definition sysctl (st : K) (name : list Z) (namelen : Z)
    (oldp : list ascii) (oldlen : Z)
    (newp : option (list ascii)) (newlen : Z)
  : (Z * list ascii * Z) * K :=
  let (rp, st') :=
    kernel st {| rq_name := name; rq_namelen := namelen;
                 rq_oldlen := oldlen; rq_newp := newp;
                 rq_newlen := newlen |} in
  ((rp_ret rp,
    copyout (firstn (Z.to_nat oldlen) (rp_data rp)) oldp,
    rp_oldlen rp), st').

(** [kip.ki_stat]. *)
Definition ki_stat (kip : list ascii) : option ascii :=
  nth_error kip off_ki_stat.

(** [kip.ki_wmesg] as a pointer: the memory of [kip] from the first element
    of the array on. *)
Definition ki_wmesg (kip : list ascii) : list ascii :=
  skipn off_ki_wmesg kip.

(** The wait message as text: the C string in the array
    [ki_wmesg[WMESGLEN + 1]]. *)
Definition wait_label (kip : list ascii) : string :=
  string_of_list_ascii
    (c_str (firstn (WMESGLEN + 1) (skipn off_ki_wmesg kip))).

(** The function of [src/sysctl.c].  [kip] is the automatic variable with
    the bytes it happens to hold at entry. *)
Definition iphd_sysctl_is_waiting (kip : list ascii) (pid : Z) (st : K)
  : option Z * K :=
  let kipsz := Z.of_nat sizeof_kinfo_proc in
  let addr := [CTL_KERN; KERN_PROC; KERN_PROC_PID; pid] in
  let '((err, kip, kipsz), st) := sysctl st addr 4 kip kipsz None 0 in
  if err <? 0 then
    (Some 0, st)
  else
    (c_and (option_map (fun c => c_eq c "S") (ki_stat kip))
           (option_map c_not (strcmp (ki_wmesg kip) (literal "ttyin"))),
     st).

(** ** Facts about the C operations *)

Lemma uchar_inj (a b : ascii) : uchar a = uchar b -> a = b.
Proof.
  unfold uchar. intro H. apply N2Z.inj in H.
  rewrite <- (ascii_N_embedding a), <- (ascii_N_embedding b).
  now rewrite H.
Qed.

Lemma uchar_diff (a b : ascii) : a <> b -> uchar a - uchar b <> 0.
Proof.
  intros Hab Hd. apply Hab, uchar_inj. lia.
Qed.

Lemma c_eq_bool (a b : ascii) : c_eq a b = Z.b2z (Ascii.eqb a b).
Proof. unfold c_eq. now destruct (Ascii.eqb a b). Qed.

Lemma c_not_bool (v : Z) : c_not v = Z.b2z (v =? 0).
Proof. unfold c_not. now destruct (v =? 0). Qed.

Lemma c_and_range (a b : option Z) (v : Z) :
  c_and a b = Some v -> v = 0 \/ v = 1.
Proof.
  unfold c_and. destruct a as [va|]; [|discriminate].
  destruct (va =? 0).
  - intros [= <-]. now left.
  - destruct b as [vb|]; [|discriminate].
    destruct (vb =? 0); intros [= <-]; auto.
Qed.

(** Against a literal without embedded NUL, [strcmp] reads one byte more
    than the literal has characters at most, and it returns 0 exactly when
    the array holds the literal as its C string. *)
Lemma strcmp_literal (lit : list ascii) :
  Forall (fun c => c <> NUL) lit ->
  forall (mem : list ascii) (n : nat),
    (List.length lit < n)%nat -> (n <= List.length mem)%nat ->
    exists r, strcmp mem (lit ++ [NUL]) = Some r
              /\ (r = 0 <-> c_str (firstn n mem) = lit).
Proof.
  induction 1 as [|a l Ha Hl IH]; intros mem n Hn Hm.
  - destruct mem as [|c m]; [simpl in *; lia|].
    destruct n as [|n]; [simpl in *; lia|].
    simpl. destruct (Ascii.eqb_spec c NUL) as [->|Hc].
    + exists 0. split; [reflexivity|]. now split.
    + exists (uchar c - uchar NUL). split; [reflexivity|].
      split; [intro H0; now apply uchar_diff in H0|discriminate].
  - destruct mem as [|c m]; [simpl in *; lia|].
    destruct n as [|n]; [simpl in *; lia|].
    simpl in Hn, Hm.
    destruct (IH m n ltac:(lia) ltac:(lia)) as (r & Hr & Hiff).
    simpl. destruct (Ascii.eqb_spec c a) as [->|Hca].
    + destruct (Ascii.eqb_spec a NUL) as [HN|_]; [contradiction|].
      exists r. split; [exact Hr|].
      rewrite Hiff. split; [now intros ->|now intros [= ->]].
    + exists (uchar c - uchar a). split; [reflexivity|].
      split; [intro H0; now apply uchar_diff in H0|].
      destruct (Ascii.eqb c NUL); [discriminate|]. intros [= E _].
      contradiction.
Qed.

Lemma copyout_length (data buf : list ascii) :
  List.length (copyout data buf) = List.length buf.
Proof.
  unfold copyout. rewrite length_firstn, length_app, length_skipn. lia.
Qed.

(** Where the kernel copied nothing, the buffer is what it was. *)
Lemma copyout_nil (buf : list ascii) : copyout [] buf = buf.
Proof. unfold copyout. simpl. apply firstn_all. Qed.

(** ** The call the function makes *)

Local Abbreviation query st kip pid :=
  (sysctl st [CTL_KERN; KERN_PROC; KERN_PROC_PID; pid] 4 kip
          (Z.of_nat sizeof_kinfo_proc) None 0).

Local Abbreviation request pid :=
  {| rq_name := [CTL_KERN; KERN_PROC; KERN_PROC_PID; pid];
     rq_namelen := 4;
     rq_oldlen := Z.of_nat sizeof_kinfo_proc;
     rq_newp := None;
     rq_newlen := 0 |}.

Lemma query_inv st kip0 pid err kip kipsz st' :
  query st kip0 pid = ((err, kip, kipsz), st') ->
  err = rp_ret (fst (kernel st (request pid)))
  /\ kip = copyout (firstn sizeof_kinfo_proc
                      (rp_data (fst (kernel st (request pid))))) kip0
  /\ kipsz = rp_oldlen (fst (kernel st (request pid)))
  /\ st' = snd (kernel st (request pid)).
Proof.
  unfold sysctl. destruct (kernel st (request pid)) as [rp s].
  rewrite Nat2Z.id. intros [= <- <- <- <-]. now simpl.
Qed.

Lemma query_length st kip0 pid err kip kipsz st' :
  query st kip0 pid = ((err, kip, kipsz), st') ->
  List.length kip = List.length kip0.
Proof.
  intro Q. apply query_inv in Q as (_ & -> & _). apply copyout_length.
Qed.

(** The body of the function after the call. *)
Lemma iphd_after_query st kip0 pid err kip kipsz st' :
  query st kip0 pid = ((err, kip, kipsz), st') ->
  iphd_sysctl_is_waiting kip0 pid st =
    if err <? 0 then (Some 0, st')
    else (c_and (option_map (fun c => c_eq c "S") (ki_stat kip))
                (option_map c_not
                   (strcmp (ki_wmesg kip) (literal "ttyin"))), st').
Proof.
  intro Q. unfold iphd_sysctl_is_waiting. now rewrite Q.
Qed.

(** ** Claims that hold for every layout *)

Lemma failure_value st kip0 pid err kip kipsz st' :
  query st kip0 pid = ((err, kip, kipsz), st') ->
  err < 0 ->
  iphd_sysctl_is_waiting kip0 pid st = (Some 0, st').
Proof.
  intros Q Herr. rewrite (iphd_after_query _ _ _ _ _ _ _ Q).
  destruct (Z.ltb_spec err 0) as [_|?]; [reflexivity|lia].
Qed.

(** C3.  When the kernel reports failure (a negative return code) the
    function returns false at once: the answer is the same for every
    negative code and for every content of the buffer, which is not
    looked at. *)
Theorem failure_folds_to_false st kip0 pid err kip kipsz st' :
  query st kip0 pid = ((err, kip, kipsz), st') ->
  err < 0 ->
  fst (iphd_sysctl_is_waiting kip0 pid st) = Some 0.
Proof.
  intros Q Herr. now rewrite (failure_value _ _ _ _ _ _ _ Q Herr).
Qed.

(** C6.  A snapshot retrieved without error whose sleep state is not the
    sleeping code is answered with false, whatever the wait label holds. *)
Theorem wrong_state_is_false st kip0 pid err kip kipsz st' (c : ascii) :
  query st kip0 pid = ((err, kip, kipsz), st') ->
  0 <= err ->
  ki_stat kip = Some c ->
  c <> "S"%char ->
  fst (iphd_sysctl_is_waiting kip0 pid st) = Some 0.
Proof.
  intros Q Herr Hc Hne.
  rewrite (iphd_after_query _ _ _ _ _ _ _ Q).
  destruct (Z.ltb_spec err 0) as [?|_]; [lia|]. simpl fst.
  rewrite Hc. simpl. unfold c_eq.
  destruct (Ascii.eqb_spec c "S") as [?|_]; [contradiction|reflexivity].
Qed.

(** C8.  The one request of a call carries no new value: a null pointer and
    length 0.  The kernel state after the call is the state this request
    leaves, so with a kernel that changes nothing on a request without a new
    value, the call changes nothing. *)
Theorem query_is_read_only st kip0 pid :
  (forall s rq, rq_newp rq = None -> rq_newlen rq = 0 ->
                snd (kernel s rq) = s) ->
  snd (iphd_sysctl_is_waiting kip0 pid st) = snd (kernel st (request pid))
  /\ rq_newp (request pid) = None
  /\ rq_newlen (request pid) = 0
  /\ snd (iphd_sysctl_is_waiting kip0 pid st) = st.
Proof.
  intro Hro.
  assert (E : snd (iphd_sysctl_is_waiting kip0 pid st)
              = snd (kernel st (request pid))).
  { destruct (query st kip0 pid) as [[[err kip] kipsz] st'] eqn:Q.
    rewrite (iphd_after_query _ _ _ _ _ _ _ Q).
    apply query_inv in Q as (_ & _ & _ & ->).
    now destruct (err <? 0). }
  repeat split; try exact E.
  rewrite E. now apply Hro.
Qed.

(** A buffer that the kernel filled to the end no longer shows what the
    variable held before. *)
Lemma copyout_full (n : nat) (data kip0 : list ascii) :
  List.length kip0 = n ->
  (n <= List.length data)%nat ->
  copyout (firstn n data) kip0 = firstn n data.
Proof.
  intros <- H. unfold copyout.
  rewrite length_firstn, Nat.min_l by exact H.
  rewrite skipn_all, app_nil_r.
  apply firstn_all2. rewrite length_firstn. lia.
Qed.

(** Outside the claims: when the kernel fails, or copies out a whole
    structure, the bytes that [kip] held before the call do not matter. *)
Lemma filled_result_ignores_stack st kip0 kip1 pid :
  List.length kip0 = sizeof_kinfo_proc ->
  List.length kip1 = sizeof_kinfo_proc ->
  rp_ret (fst (kernel st (request pid))) < 0
  \/ (sizeof_kinfo_proc
      <= List.length (rp_data (fst (kernel st (request pid)))))%nat ->
  iphd_sysctl_is_waiting kip0 pid st = iphd_sysctl_is_waiting kip1 pid st.
Proof.
  intros H0 H1 Hrp.
  destruct (query st kip0 pid) as [[[e0 b0] z0] s0] eqn:Q0.
  destruct (query st kip1 pid) as [[[e1 b1] z1] s1] eqn:Q1.
  rewrite (iphd_after_query _ _ _ _ _ _ _ Q0),
          (iphd_after_query _ _ _ _ _ _ _ Q1).
  apply query_inv in Q0 as (-> & -> & _ & ->).
  apply query_inv in Q1 as (-> & -> & _ & ->).
  destruct Hrp as [Hneg|Hfull].
  - destruct (Z.ltb_spec (rp_ret (fst (kernel st (request pid)))) 0);
      [reflexivity|lia].
  - now rewrite (copyout_full _ _ _ H0 Hfull),
                (copyout_full _ _ _ H1 Hfull).
Qed.

(** ** What the function reads, and when the stack shows through *)

(** [strcmp] looks at no more bytes of its first argument than the second
    argument has. *)
Lemma strcmp_firstn (s2 s1 : list ascii) :
  strcmp s1 s2 = strcmp (firstn (List.length s2) s1) s2.
Proof.
  revert s1. induction s2 as [|c2 r2 IH]; intros [|c1 r1]; simpl;
    try reflexivity.
  destruct (Ascii.eqb c1 c2); [|reflexivity].
  destruct (Ascii.eqb c1 NUL); [reflexivity|]. apply IH.
Qed.

(** Against a literal without embedded NUL the comparison is 0 exactly when
    the memory starts with the bytes of the literal, NUL included. *)
Lemma strcmp_zero_iff (lit : list ascii) :
  Forall (fun c => c <> NUL) lit ->
  forall mem : list ascii,
    strcmp mem (lit ++ [NUL]) = Some 0
    <-> firstn (List.length lit + 1) mem = lit ++ [NUL].
Proof.
  induction 1 as [|a l Ha Hl IH]; intros [|c m]; simpl;
    try (split; discriminate).
  - destruct (Ascii.eqb_spec c NUL) as [->|Hc].
    + split; reflexivity.
    + split.
      * intros [= E]. now apply uchar_diff in E.
      * intros [= E]. contradiction.
  - destruct (Ascii.eqb_spec c a) as [->|Hca].
    + destruct (Ascii.eqb_spec a NUL) as [?|_]; [contradiction|].
      rewrite IH. split; [now intros ->|now intros [= ->]].
    + split.
      * intros [= E]. now apply uchar_diff in E.
      * intros [= E _]. contradiction.
Qed.

(** The return expression sees the state byte and six bytes of the wait
    message, nothing else. *)
Lemma classify_frame (b1 b2 : list ascii) :
  ki_stat b1 = ki_stat b2 ->
  firstn 6 (ki_wmesg b1) = firstn 6 (ki_wmesg b2) ->
  c_and (option_map (fun c => c_eq c "S") (ki_stat b1))
        (option_map c_not (strcmp (ki_wmesg b1) (literal "ttyin")))
  = c_and (option_map (fun c => c_eq c "S") (ki_stat b2))
          (option_map c_not (strcmp (ki_wmesg b2) (literal "ttyin"))).
Proof.
  intros E1 E2. rewrite E1.
  rewrite (strcmp_firstn (literal "ttyin") (ki_wmesg b1)),
          (strcmp_firstn (literal "ttyin") (ki_wmesg b2)).
  change (List.length (literal "ttyin")) with 6%nat.
  now rewrite E2.
Qed.

(** Copied bytes that fit in the buffer sit in front of what is left of the
    old contents. *)
Lemma copyout_app (data buf : list ascii) :
  (List.length data <= List.length buf)%nat ->
  copyout data buf = data ++ skipn (List.length data) buf.
Proof.
  intro H. unfold copyout. apply firstn_all2.
  rewrite length_app, length_skipn. lia.
Qed.

Lemma copyout_covered_byte (data buf : list ascii) (i : nat) :
  (List.length data <= List.length buf)%nat ->
  (i < List.length data)%nat ->
  nth_error (copyout data buf) i = nth_error data i.
Proof.
  intros H Hi. rewrite (copyout_app _ _ H). now apply nth_error_app1.
Qed.

Lemma copyout_covered_window (data buf : list ascii) (off k : nat) :
  (List.length data <= List.length buf)%nat ->
  (off + k <= List.length data)%nat ->
  firstn k (skipn off (copyout data buf)) = firstn k (skipn off data).
Proof.
  intros H Hk. rewrite (copyout_app _ _ H), skipn_app, firstn_app.
  rewrite length_skipn.
  replace (k - (List.length data - off))%nat with 0%nat by lia.
  simpl. apply app_nil_r.
Qed.

Lemma copyout_untouched_byte (data buf : list ascii) (i : nat) :
  (List.length data <= i)%nat ->
  (i < List.length buf)%nat ->
  nth_error (copyout data buf) i = nth_error buf i.
Proof.
  intros H Hi. rewrite copyout_app by lia.
  rewrite nth_error_app2 by exact H.
  rewrite nth_error_skipn. f_equal. lia.
Qed.

(** When the bytes copied out reach over the state byte and over six bytes
    of the wait message, the answer is computed from the kernel's bytes. *)
Lemma covered_value st kip0 pid :
  List.length kip0 = sizeof_kinfo_proc ->
  let rp := fst (kernel st (request pid)) in
  let data := firstn sizeof_kinfo_proc (rp_data rp) in
  0 <= rp_ret rp ->
  (off_ki_stat < List.length data)%nat ->
  (off_ki_wmesg + 6 <= List.length data)%nat ->
  iphd_sysctl_is_waiting kip0 pid st
  = (c_and (option_map (fun c => c_eq c "S") (ki_stat data))
           (option_map c_not (strcmp (ki_wmesg data) (literal "ttyin"))),
     snd (kernel st (request pid))).
Proof.
  intros Hlen rp data Hret Hs Hw.
  assert (Hfit : (List.length data <= List.length kip0)%nat).
  { unfold data. rewrite length_firstn. lia. }
  destruct (query st kip0 pid) as [[[err kip] kipsz] st'] eqn:Q.
  rewrite (iphd_after_query _ _ _ _ _ _ _ Q).
  apply query_inv in Q as (-> & -> & _ & ->). fold rp. fold data.
  destruct (Z.ltb_spec (rp_ret rp) 0) as [?|_]; [lia|].
  f_equal. apply classify_frame.
  - unfold ki_stat. now apply copyout_covered_byte.
  - unfold ki_wmesg. now apply copyout_covered_window.
Qed.

Lemma state_after_call st kip0 pid :
  snd (iphd_sysctl_is_waiting kip0 pid st) = snd (kernel st (request pid)).
Proof.
  destruct (query st kip0 pid) as [[[err kip] kipsz] st'] eqn:Q.
  rewrite (iphd_after_query _ _ _ _ _ _ _ Q).
  apply query_inv in Q as (_ & _ & _ & ->).
  now destruct (err <? 0).
Qed.

(** X1.  After a call without error the answer depends on the buffer only
    through the state byte and the first six bytes of the wait message, and
    on the return code only through its sign: two calls that agree on these
    give the same answer, whatever else the buffers hold and whichever
    process was asked for. *)
Theorem result_reads_two_fields_only
    stA kipA pidA errA bufA lenA stA' stB kipB pidB errB bufB lenB stB' :
  query stA kipA pidA = ((errA, bufA, lenA), stA') ->
  query stB kipB pidB = ((errB, bufB, lenB), stB') ->
  0 <= errA -> 0 <= errB ->
  ki_stat bufA = ki_stat bufB ->
  firstn 6 (ki_wmesg bufA) = firstn 6 (ki_wmesg bufB) ->
  fst (iphd_sysctl_is_waiting kipA pidA stA)
  = fst (iphd_sysctl_is_waiting kipB pidB stB).
Proof.
  intros QA QB HA HB Es Ew.
  rewrite (iphd_after_query _ _ _ _ _ _ _ QA),
          (iphd_after_query _ _ _ _ _ _ _ QB).
  destruct (Z.ltb_spec errA 0) as [?|_]; [lia|].
  destruct (Z.ltb_spec errB 0) as [?|_]; [lia|].
  simpl fst. now apply classify_frame.
Qed.

(** X2.  The answer is 1 exactly when the return code is not negative, the
    state byte is S and the six bytes at the wait message are t t y i n NUL.
    This needs nothing of the layout: bytes behind the NUL are not looked at,
    and a buffer that ends before the NUL never gives 1. *)
Theorem positive_iff_six_bytes st kip0 pid err kip kipsz st' :
  query st kip0 pid = ((err, kip, kipsz), st') ->
  (fst (iphd_sysctl_is_waiting kip0 pid st) = Some 1
   <-> 0 <= err
       /\ ki_stat kip = Some "S"%char
       /\ firstn 6 (ki_wmesg kip) = literal "ttyin").
Proof.
  intro Q. rewrite (iphd_after_query _ _ _ _ _ _ _ Q).
  pose proof (strcmp_zero_iff (list_ascii_of_string "ttyin")
                ltac:(repeat constructor; discriminate) (ki_wmesg kip))
    as Hz.
  change (list_ascii_of_string "ttyin" ++ [NUL]) with (literal "ttyin") in Hz.
  change (List.length (list_ascii_of_string "ttyin") + 1)%nat with 6%nat in Hz.
  destruct (Z.ltb_spec err 0) as [Hneg|Hpos]; simpl fst.
  { split; [discriminate|]. intros [? _]. lia. }
  destruct (ki_stat kip) as [c|]; simpl.
  2:{ split; [discriminate|]. intros (_ & [=] & _). }
  unfold c_eq. destruct (Ascii.eqb_spec c "S") as [->|Hc]; simpl.
  2:{ split; [discriminate|]. intros (_ & [= E] & _). contradiction. }
  rewrite <- Hz.
  destruct (strcmp (ki_wmesg kip) (literal "ttyin")) as [r|]; simpl.
  2:{ split; [discriminate|]. intros (_ & _ & [=]). }
  unfold c_not. destruct (Z.eqb_spec r 0) as [->|Hr]; simpl.
  - split; [intros _; repeat split; auto|reflexivity].
  - split; [discriminate|]. intros (_ & _ & [= E]). contradiction.
Qed.

(** X3.  When the kernel reports failure, or copies out enough bytes to reach
    over the state byte and six bytes of the wait message, the call gives the
    same answer and leaves the same kernel state whatever the uninitialised
    [kip] held. *)
Theorem covered_fields_ignore_stack st kip0 kip1 pid :
  List.length kip0 = sizeof_kinfo_proc ->
  List.length kip1 = sizeof_kinfo_proc ->
  rp_ret (fst (kernel st (request pid))) < 0
  \/ (off_ki_stat
      < Nat.min sizeof_kinfo_proc
          (List.length (rp_data (fst (kernel st (request pid)))))
      /\ off_ki_wmesg + 6
         <= Nat.min sizeof_kinfo_proc
              (List.length (rp_data (fst (kernel st (request pid))))))%nat ->
  iphd_sysctl_is_waiting kip0 pid st = iphd_sysctl_is_waiting kip1 pid st.
Proof.
  intros H0 H1 Hrp.
  destruct (Z.lt_ge_cases (rp_ret (fst (kernel st (request pid)))) 0)
    as [Hneg|Hpos].
  - destruct (query st kip0 pid) as [[[e0 b0] z0] s0] eqn:Q0.
    destruct (query st kip1 pid) as [[[e1 b1] z1] s1] eqn:Q1.
    pose proof (query_inv _ _ _ _ _ _ _ Q0) as (E0 & _ & _ & S0).
    pose proof (query_inv _ _ _ _ _ _ _ Q1) as (E1 & _ & _ & S1).
    rewrite (failure_value _ _ _ _ _ _ _ Q0) by lia.
    rewrite (failure_value _ _ _ _ _ _ _ Q1) by lia.
    congruence.
  - destruct Hrp as [?|[Hs Hw]]; [lia|].
    rewrite <- length_firstn in Hs, Hw.
    now rewrite (covered_value st kip0 pid H0 Hpos Hs Hw),
                (covered_value st kip1 pid H1 Hpos Hs Hw).
Qed.

(** X4.  Two calls in a row: with a kernel that changes nothing on a request
    without a new value, and an answer that is a failure or reaches over both
    fields, the second call returns what the first returned and the kernel
    state is the one before the first call, whatever the stack held at
    either call. *)
Theorem repeated_call_same_answer st kip0 kip1 pid :
  (forall s rq, rq_newp rq = None -> rq_newlen rq = 0 ->
                snd (kernel s rq) = s) ->
  List.length kip0 = sizeof_kinfo_proc ->
  List.length kip1 = sizeof_kinfo_proc ->
  rp_ret (fst (kernel st (request pid))) < 0
  \/ (off_ki_stat
      < Nat.min sizeof_kinfo_proc
          (List.length (rp_data (fst (kernel st (request pid)))))
      /\ off_ki_wmesg + 6
         <= Nat.min sizeof_kinfo_proc
              (List.length (rp_data (fst (kernel st (request pid))))))%nat ->
  let first := iphd_sysctl_is_waiting kip0 pid st in
  let second := iphd_sysctl_is_waiting kip1 pid (snd first) in
  fst second = fst first /\ snd second = st.
Proof.
  intros Hro H0 H1 Hrp first second.
  assert (Est : snd first = st).
  { unfold first. rewrite state_after_call. now apply Hro. }
  unfold second. rewrite Est. split.
  - unfold first.
    destruct (Z.lt_ge_cases (rp_ret (fst (kernel st (request pid)))) 0)
      as [Hneg|Hpos].
    + destruct (query st kip0 pid) as [[[e0 b0] z0] s0] eqn:Q0.
      destruct (query st kip1 pid) as [[[e1 b1] z1] s1] eqn:Q1.
      pose proof (query_inv _ _ _ _ _ _ _ Q0) as (E0 & _).
      pose proof (query_inv _ _ _ _ _ _ _ Q1) as (E1 & _).
      rewrite (failure_value _ _ _ _ _ _ _ Q0) by lia.
      now rewrite (failure_value _ _ _ _ _ _ _ Q1) by lia.
    + destruct Hrp as [?|[Hs Hw]]; [lia|].
      rewrite <- length_firstn in Hs, Hw.
      now rewrite (covered_value st kip0 pid H0 Hpos Hs Hw),
                  (covered_value st kip1 pid H1 Hpos Hs Hw).
  - rewrite state_after_call. now apply Hro.
Qed.

(** X5.  When the bytes copied out stop before the state byte (as when
    nothing is copied out) and [kip] held a byte other than S there before
    the call, the answer is 0, whatever the return code and the rest of the
    buffer. *)
Theorem unwritten_state_not_S_is_false st kip0 pid (c : ascii) :
  (List.length (rp_data (fst (kernel st (request pid)))) <= off_ki_stat)%nat ->
  nth_error kip0 off_ki_stat = Some c ->
  c <> "S"%char ->
  fst (iphd_sysctl_is_waiting kip0 pid st) = Some 0.
Proof.
  intros Hshort Hc Hne.
  assert (Hin : (off_ki_stat < List.length kip0)%nat).
  { apply nth_error_Some. now rewrite Hc. }
  destruct (query st kip0 pid) as [[[err kip] kipsz] st'] eqn:Q.
  rewrite (iphd_after_query _ _ _ _ _ _ _ Q).
  apply query_inv in Q as (_ & -> & _).
  destruct (err <? 0); [reflexivity|]. simpl fst.
  unfold ki_stat. rewrite copyout_untouched_byte.
  - rewrite Hc. simpl. unfold c_eq.
    destruct (Ascii.eqb_spec c "S") as [?|_]; [contradiction|reflexivity].
  - rewrite length_firstn. lia.
  - exact Hin.
Qed.

(** ** Layout of [struct kinfo_proc]

    Both fields lie inside the structure, and the wait message array has
    room for ["ttyin"] and its NUL. *)
Hypothesis stat_in_kip : (off_ki_stat < sizeof_kinfo_proc)%nat.
Hypothesis wmesg_in_kip :
  (off_ki_wmesg + (WMESGLEN + 1) <= sizeof_kinfo_proc)%nat.
Hypothesis wmesg_holds_ttyin : (5 <= WMESGLEN)%nat.

(** On a buffer of the size of the structure the return expression reads
    inside the buffer, and it is 1 exactly for state ['S'] with wait
    message ["ttyin"]. *)
Lemma classify_value (kip : list ascii) :
  List.length kip = sizeof_kinfo_proc ->
  exists c,
    ki_stat kip = Some c
    /\ c_and (option_map (fun c => c_eq c "S") (ki_stat kip))
             (option_map c_not (strcmp (ki_wmesg kip) (literal "ttyin")))
       = Some (Z.b2z (Ascii.eqb c "S"
                      && String.eqb (wait_label kip) "ttyin")).
Proof.
  intro Hlen. unfold ki_stat.
  destruct (nth_error kip off_ki_stat) as [c|] eqn:Ec.
  2:{ apply nth_error_None in Ec. lia. }
  exists c. split; [reflexivity|].
  destruct (strcmp_literal (list_ascii_of_string "ttyin")
              ltac:(repeat constructor; discriminate)
              (skipn off_ki_wmesg kip) (WMESGLEN + 1)%nat)
    as (r & Hr & Hiff).
  { simpl. lia. }
  { rewrite length_skipn. lia. }
  unfold ki_wmesg, literal. rewrite Hr. simpl option_map.
  unfold c_and. rewrite c_eq_bool, c_not_bool.
  destruct (Ascii.eqb c "S"); simpl; [|reflexivity].
  f_equal. unfold wait_label.
  destruct (Z.eqb_spec r 0) as [E|E].
  - apply Hiff in E. rewrite E. reflexivity.
  - simpl.
    destruct (String.eqb_spec
                (string_of_list_ascii
                   (c_str (firstn (WMESGLEN + 1) (skipn off_ki_wmesg kip))))
                "ttyin") as [E'|_]; [|reflexivity].
    exfalso. apply E, Hiff.
    rewrite <- (list_ascii_of_string_of_list_ascii
                  (c_str (firstn (WMESGLEN + 1) (skipn off_ki_wmesg kip)))).
    now rewrite E'.
Qed.

(** After a call without error the result is the value of the return
    expression on the buffer as the call left it. *)
Lemma success_value st kip0 pid err kip kipsz st' :
  List.length kip0 = sizeof_kinfo_proc ->
  query st kip0 pid = ((err, kip, kipsz), st') ->
  0 <= err ->
  exists c,
    ki_stat kip = Some c
    /\ fst (iphd_sysctl_is_waiting kip0 pid st)
       = Some (Z.b2z (Ascii.eqb c "S"
                      && String.eqb (wait_label kip) "ttyin")).
Proof.
  intros Hlen Q Herr.
  rewrite (iphd_after_query _ _ _ _ _ _ _ Q).
  destruct (Z.ltb_spec err 0) as [?|_]; [lia|]. simpl fst.
  apply classify_value.
  rewrite (query_length _ _ _ _ _ _ _ Q). exact Hlen.
Qed.

(** Every call yields 0 or 1. *)
Lemma result_bool st kip0 pid :
  List.length kip0 = sizeof_kinfo_proc ->
  exists b : bool,
    fst (iphd_sysctl_is_waiting kip0 pid st) = Some (Z.b2z b).
Proof.
  intro Hlen.
  destruct (query st kip0 pid) as [[[err kip] kipsz] st'] eqn:Q.
  destruct (Z.lt_ge_cases err 0) as [Hneg|Hpos].
  - exists false. now rewrite (failure_value _ _ _ _ _ _ _ Q Hneg).
  - destruct (success_value _ _ _ _ _ _ _ Hlen Q Hpos) as (c & _ & ->).
    eexists. reflexivity.
Qed.

(** ** Claims that rest on the layout *)

(** C1.  When the request succeeds, the function returns true (1) if and
    only if the sleep state of the snapshot is the sleeping code and its
    wait label is exactly the terminal input label; in every other case it
    returns false (0). *)
Theorem waiting_iff_sleeping_on_ttyin st kip0 pid err kip kipsz st' :
  List.length kip0 = sizeof_kinfo_proc ->
  query st kip0 pid = ((err, kip, kipsz), st') ->
  0 <= err ->
  (fst (iphd_sysctl_is_waiting kip0 pid st) = Some 1
   <-> ki_stat kip = Some "S"%char /\ wait_label kip = "ttyin"%string)
  /\ (~ (ki_stat kip = Some "S"%char /\ wait_label kip = "ttyin"%string)
      -> fst (iphd_sysctl_is_waiting kip0 pid st) = Some 0).
Proof.
  intros Hlen Q Herr.
  destruct (success_value _ _ _ _ _ _ _ Hlen Q Herr) as (c & Hc & ->).
  rewrite Hc.
  destruct (Ascii.eqb_spec c "S") as [->|Hs];
    destruct (String.eqb_spec (wait_label kip) "ttyin") as [El|El];
    simpl; (split; [split|]); intros H;
    try discriminate H; try reflexivity; try tauto;
    try (destruct H as [[= E] E']; contradiction).
Qed.

(** Outside the claims: for every process identifier, whatever the kernel
    answers, the function returns 0 or 1 and does not fault; when the kernel
    reports that the request failed the answer is 0.  A process that does
    not exist gets 0 through this branch only. *)
Theorem total_and_false_on_lookup_miss st kip0 (pid : Z) :
  List.length kip0 = sizeof_kinfo_proc ->
  fst (iphd_sysctl_is_waiting kip0 pid st) <> None
  /\ (fst (iphd_sysctl_is_waiting kip0 pid st) = Some 0
      \/ fst (iphd_sysctl_is_waiting kip0 pid st) = Some 1)
  /\ (rp_ret (fst (kernel st (request pid))) < 0 ->
      fst (iphd_sysctl_is_waiting kip0 pid st) = Some 0).
Proof.
  intro Hlen. destruct (result_bool st kip0 pid Hlen) as (b & Hb).
  split; [now rewrite Hb|]. split.
  - rewrite Hb. destruct b; auto.
  - intro Hneg.
    destruct (query st kip0 pid) as [[[err kip] kipsz] st'] eqn:Q.
    rewrite (failure_value _ _ _ _ _ _ _ Q); [reflexivity|].
    apply query_inv in Q as (-> & _). exact Hneg.
Qed.

(** C5.  A snapshot retrieved without error whose wait label is a strict
    prefix of ["ttyin"], or contains ["ttyin"] without being equal to it,
    is answered with false: the label is compared for equality. *)
Theorem prefix_or_superstring_is_false st kip0 pid err kip kipsz st' :
  List.length kip0 = sizeof_kinfo_proc ->
  query st kip0 pid = ((err, kip, kipsz), st') ->
  0 <= err ->
  (exists t, t <> ""%string
             /\ (wait_label kip ++ t)%string = "ttyin"%string)
  \/ (exists a b, wait_label kip = (a ++ "ttyin" ++ b)%string
                  /\ wait_label kip <> "ttyin"%string) ->
  fst (iphd_sysctl_is_waiting kip0 pid st) = Some 0.
Proof.
  intros Hlen Q Herr Hlab.
  destruct (success_value _ _ _ _ _ _ _ Hlen Q Herr) as (c & _ & ->).
  destruct (String.eqb_spec (wait_label kip) "ttyin") as [E|_].
  - exfalso. destruct Hlab as [(t & Ht & Hp)|(a & b & _ & Hne)].
    + rewrite E in Hp. simpl in Hp. injection Hp as Hp. contradiction.
    + contradiction.
  - now rewrite andb_false_r.
Qed.

(** C9.  The constants are fixed in the code: the answer is 1 only if the
    state byte is 83, the character S, and the wait message is the five
    bytes 116 116 121 105 110, the string ttyin; with these the answer is
    1. *)
Theorem positive_needs_S_and_ttyin st kip0 pid err kip kipsz st' :
  List.length kip0 = sizeof_kinfo_proc ->
  query st kip0 pid = ((err, kip, kipsz), st') ->
  (fst (iphd_sysctl_is_waiting kip0 pid st) = Some 1
   <-> 0 <= err
       /\ option_map uchar (ki_stat kip) = Some 83
       /\ map uchar (list_ascii_of_string (wait_label kip))
          = [116; 116; 121; 105; 110]).
Proof.
  intros Hlen Q.
  assert (HS : forall c, uchar c = 83 <-> c = "S"%char).
  { intro c. split; [intro E; now apply uchar_inj|now intros ->]. }
  assert (HL : forall l, map uchar (list_ascii_of_string l)
                         = [116; 116; 121; 105; 110]
                         <-> l = "ttyin"%string).
  { intro l. split; [|now intros ->].
    intro E. rewrite <- (string_of_list_ascii_of_string l).
    destruct (list_ascii_of_string l)
      as [|c1 [|c2 [|c3 [|c4 [|c5 [|c6 r]]]]]]; try discriminate E.
    injection E as E1 E2 E3 E4 E5.
    apply (uchar_inj _ "t") in E1. apply (uchar_inj _ "t") in E2.
    apply (uchar_inj _ "y") in E3. apply (uchar_inj _ "i") in E4.
    apply (uchar_inj _ "n") in E5. now subst. }
  destruct (Z.lt_ge_cases err 0) as [Hneg|Hpos].
  - rewrite (failure_value _ _ _ _ _ _ _ Q Hneg). simpl.
    split; [discriminate|]. intros [? _]. lia.
  - destruct (success_value _ _ _ _ _ _ _ Hlen Q Hpos) as (c & -> & ->).
    rewrite HL. simpl option_map. split.
    + destruct (Ascii.eqb_spec c "S") as [->|_]; [|discriminate].
      destruct (String.eqb_spec (wait_label kip) "ttyin") as [->|_];
        [|discriminate].
      intros _. repeat split; auto.
    + intros (_ & [= Hc] & ->). apply HS in Hc. now subst.
Qed.

(** C10.  The [int] that is returned is 0 or 1 on every input: 0 on the
    error branch, and on the other branch the value of a conjunction of
    comparisons. *)
Theorem returns_zero_or_one st kip0 pid :
  List.length kip0 = sizeof_kinfo_proc ->
  (exists b : bool,
      fst (iphd_sysctl_is_waiting kip0 pid st) = Some (Z.b2z b))
  /\ (forall v, fst (iphd_sysctl_is_waiting kip0 pid st) = Some v ->
                0 <= v <= 1).
Proof.
  intro Hlen. destruct (result_bool st kip0 pid Hlen) as (b & Hb).
  split; [now exists b|].
  rewrite Hb. intros v [= <-]. destruct b; simpl; lia.
Qed.

End Probe.

(** ** The model on the sample platform *)

Local Abbreviation run kern kip pid st :=
  (iphd_sysctl_is_waiting Sample.ptable kern
     Sample.CTL_KERN Sample.KERN_PROC Sample.KERN_PROC_PID
     Sample.sizeof_kinfo_proc Sample.off_ki_stat Sample.off_ki_wmesg
     kip pid st).

Local Abbreviation sample_request pid :=
  {| rq_name := [Sample.CTL_KERN; Sample.KERN_PROC; Sample.KERN_PROC_PID; pid];
     rq_namelen := 4;
     rq_oldlen := Z.of_nat Sample.sizeof_kinfo_proc;
     rq_newp := None;
     rq_newlen := 0 |}.

Example waiting_process :
  run Sample.strict_kernel Sample.zeros 42
      [(42, Sample.kinfo_image "S" "ttyin")]
  = (Some 1, [(42, Sample.kinfo_image "S" "ttyin")]).
Proof. reflexivity. Qed.

Example sleeping_on_a_pipe :
  fst (run Sample.strict_kernel Sample.zeros 42
           [(42, Sample.kinfo_image "S" "piperd")]) = Some 0.
Proof. reflexivity. Qed.

Example no_such_process :
  fst (run Sample.strict_kernel Sample.zeros 7
           [(42, Sample.kinfo_image "S" "ttyin")]) = Some 0.
Proof. reflexivity. Qed.

(** C4.  The claim asks for false when the request returns without error but
    copied out less than a whole structure.  The code never compares [kipsz]
    with the size of [kip]: here the kernel returns 0, copies nothing and
    records length 0, the variable [kip] still holds an image with state S
    and wait message ttyin, and the function answers 1. *)
Theorem short_result_is_classified :
  let rp := fst (Sample.lenient_kernel [] (sample_request 42)) in
  rp_ret rp = 0
  /\ rp_data rp = []
  /\ rp_oldlen rp = 0
  /\ rp_oldlen rp < Z.of_nat Sample.sizeof_kinfo_proc
  /\ fst (run Sample.lenient_kernel (Sample.kinfo_image "S" "ttyin") 42 [])
     = Some 1.
Proof. vm_compute. repeat split; reflexivity. Qed.

(** C7.  The claim asks for the same answer from two calls made while the
    kernel answers the same.  Here two calls follow each other, the kernel
    state is the same before both and the kernel's answer is the same (no
    error, nothing copied out); the first call finds state S and wait message
    ttyin in its uninitialised [kip], the second finds zeros, and the answers
    are 1 and 0. *)
Theorem stale_buffer_breaks_idempotence :
  let t : Sample.ptable := [] in
  let first := run Sample.lenient_kernel
                   (Sample.kinfo_image "S" "ttyin") 42 t in
  let second := run Sample.lenient_kernel Sample.zeros 42 (snd first) in
  snd first = t
  /\ fst (Sample.lenient_kernel t (sample_request 42))
     = fst (Sample.lenient_kernel (snd first) (sample_request 42))
  /\ fst first = Some 1
  /\ fst second = Some 0.
Proof. vm_compute. repeat split; reflexivity. Qed.

(** C2.  The claim asks for a boolean without a fault for every process
    identifier, and for false when the process does not exist.  The first
    holds; the second holds only where the kernel reports the missing process
    as a failure.  Here the identifier is -1, no process has it, the kernel
    returns 0 and copies nothing out, the variable [kip] still holds an image
    with state S and wait message ttyin, and the function answers 1; with a
    kernel that fails for the same identifier the answer is 0. *)
Theorem missing_process_answered_true :
  let t : Sample.ptable := [(42, Sample.kinfo_image "R" "select")] in
  let stale := Sample.kinfo_image "S" "ttyin" in
  Sample.pfind (-1) t = None
  /\ rp_ret (fst (Sample.lenient_kernel t (sample_request (-1)))) = 0
  /\ rp_data (fst (Sample.lenient_kernel t (sample_request (-1)))) = []
  /\ fst (run Sample.lenient_kernel stale (-1) t) = Some 1
  /\ fst (run Sample.strict_kernel stale (-1) t) = Some 0.
Proof. vm_compute. repeat split; reflexivity. Qed.

(** ** The claims at concrete inputs *)

Lemma waiting_iff_sleeping_on_ttyin_witness :
  let img := Sample.kinfo_image "S" "ttyin" in
  let r := fst (run Sample.strict_kernel Sample.zeros 42 [(42, img)]) in
  (r = Some 1
   <-> ki_stat Sample.off_ki_stat img = Some "S"%char
       /\ wait_label Sample.off_ki_wmesg Sample.WMESGLEN img
          = "ttyin"%string)
  /\ (~ (ki_stat Sample.off_ki_stat img = Some "S"%char
         /\ wait_label Sample.off_ki_wmesg Sample.WMESGLEN img
            = "ttyin"%string)
      -> r = Some 0).
Proof.
  intros img r.
  apply (waiting_iff_sleeping_on_ttyin Sample.ptable Sample.strict_kernel
           Sample.CTL_KERN Sample.KERN_PROC Sample.KERN_PROC_PID
           Sample.sizeof_kinfo_proc Sample.off_ki_stat Sample.off_ki_wmesg
           Sample.WMESGLEN
           ltac:(vm_compute; lia) ltac:(vm_compute; lia)
           ltac:(vm_compute; lia)
           [(42, img)] Sample.zeros 42 0 img 16 [(42, img)]);
    [reflexivity | reflexivity | lia].
Defined.

Lemma total_and_false_on_lookup_miss_witness :
  let r := fst (run Sample.strict_kernel Sample.zeros (-1) []) in
  r <> None
  /\ (r = Some 0 \/ r = Some 1)
  /\ (rp_ret (fst (Sample.strict_kernel [] (sample_request (-1)))) < 0 ->
      r = Some 0).
Proof.
  intro r.
  apply (total_and_false_on_lookup_miss Sample.ptable Sample.strict_kernel
           Sample.CTL_KERN Sample.KERN_PROC Sample.KERN_PROC_PID
           Sample.sizeof_kinfo_proc Sample.off_ki_stat Sample.off_ki_wmesg
           Sample.WMESGLEN
           ltac:(vm_compute; lia) ltac:(vm_compute; lia)
           ltac:(vm_compute; lia)
           [] Sample.zeros (-1)).
  reflexivity.
Defined.

Lemma failure_folds_to_false_witness :
  fst (run Sample.strict_kernel [] 7 [(42, Sample.kinfo_image "S" "ttyin")])
  = Some 0.
Proof.
  apply (failure_folds_to_false Sample.ptable Sample.strict_kernel
           Sample.CTL_KERN Sample.KERN_PROC Sample.KERN_PROC_PID
           Sample.sizeof_kinfo_proc Sample.off_ki_stat Sample.off_ki_wmesg
           [(42, Sample.kinfo_image "S" "ttyin")] [] 7
           (-1) [] 0 [(42, Sample.kinfo_image "S" "ttyin")]);
    [reflexivity | lia].
Defined.

Lemma prefix_or_superstring_is_false_witness :
  fst (run Sample.strict_kernel Sample.zeros 42
           [(42, Sample.kinfo_image "S" "tty")]) = Some 0
  /\ fst (run Sample.strict_kernel Sample.zeros 43
              [(43, Sample.kinfo_image "S" "ttyinput")]) = Some 0.
Proof.
  split.
  - apply (prefix_or_superstring_is_false Sample.ptable Sample.strict_kernel
             Sample.CTL_KERN Sample.KERN_PROC Sample.KERN_PROC_PID
             Sample.sizeof_kinfo_proc Sample.off_ki_stat Sample.off_ki_wmesg
             Sample.WMESGLEN
             ltac:(vm_compute; lia) ltac:(vm_compute; lia)
             ltac:(vm_compute; lia)
             [(42, Sample.kinfo_image "S" "tty")] Sample.zeros 42
             0 (Sample.kinfo_image "S" "tty") 16
             [(42, Sample.kinfo_image "S" "tty")]);
      [reflexivity | reflexivity | lia |].
    left. exists "in"%string. split; [discriminate | reflexivity].
  - apply (prefix_or_superstring_is_false Sample.ptable Sample.strict_kernel
             Sample.CTL_KERN Sample.KERN_PROC Sample.KERN_PROC_PID
             Sample.sizeof_kinfo_proc Sample.off_ki_stat Sample.off_ki_wmesg
             Sample.WMESGLEN
             ltac:(vm_compute; lia) ltac:(vm_compute; lia)
             ltac:(vm_compute; lia)
             [(43, Sample.kinfo_image "S" "ttyinput")] Sample.zeros 43
             0 (Sample.kinfo_image "S" "ttyinput") 16
             [(43, Sample.kinfo_image "S" "ttyinput")]);
      [reflexivity | reflexivity | lia |].
    right. exists ""%string, "put"%string.
    split; [reflexivity | discriminate].
Defined.

Lemma wrong_state_is_false_witness :
  fst (run Sample.strict_kernel Sample.zeros 42
           [(42, Sample.kinfo_image "T" "ttyin")]) = Some 0.
Proof.
  apply (wrong_state_is_false Sample.ptable Sample.strict_kernel
           Sample.CTL_KERN Sample.KERN_PROC Sample.KERN_PROC_PID
           Sample.sizeof_kinfo_proc Sample.off_ki_stat Sample.off_ki_wmesg
           [(42, Sample.kinfo_image "T" "ttyin")] Sample.zeros 42
           0 (Sample.kinfo_image "T" "ttyin") 16
           [(42, Sample.kinfo_image "T" "ttyin")] "T"%char);
    [reflexivity | lia | reflexivity | discriminate].
Defined.

Lemma query_is_read_only_witness :
  let t : Sample.ptable := [(42, Sample.kinfo_image "S" "ttyin")] in
  snd (run Sample.strict_kernel Sample.zeros 42 t)
  = snd (Sample.strict_kernel t (sample_request 42))
  /\ rq_newp (sample_request 42) = None
  /\ rq_newlen (sample_request 42) = 0
  /\ snd (run Sample.strict_kernel Sample.zeros 42 t) = t.
Proof.
  intro t.
  apply (query_is_read_only Sample.ptable Sample.strict_kernel
           Sample.CTL_KERN Sample.KERN_PROC Sample.KERN_PROC_PID
           Sample.sizeof_kinfo_proc Sample.off_ki_stat Sample.off_ki_wmesg
           t Sample.zeros 42).
  intros s rq Hnew _. unfold Sample.strict_kernel. rewrite Hnew.
  destruct (rq_name rq) as [|n0 [|n1 [|n2 [|n3 [|n4 r]]]]];
    try reflexivity.
  destruct (Sample.pfind n3 s); reflexivity.
Defined.

Lemma positive_needs_S_and_ttyin_witness :
  let img := Sample.kinfo_image "S" "ttyin" in
  fst (run Sample.strict_kernel Sample.zeros 42 [(42, img)]) = Some 1
  <-> 0 <= 0
      /\ option_map uchar (ki_stat Sample.off_ki_stat img) = Some 83
      /\ map uchar
           (list_ascii_of_string
              (wait_label Sample.off_ki_wmesg Sample.WMESGLEN img))
         = [116; 116; 121; 105; 110].
Proof.
  intro img.
  apply (positive_needs_S_and_ttyin Sample.ptable Sample.strict_kernel
           Sample.CTL_KERN Sample.KERN_PROC Sample.KERN_PROC_PID
           Sample.sizeof_kinfo_proc Sample.off_ki_stat Sample.off_ki_wmesg
           Sample.WMESGLEN
           ltac:(vm_compute; lia) ltac:(vm_compute; lia)
           ltac:(vm_compute; lia)
           [(42, img)] Sample.zeros 42 0 img 16 [(42, img)]);
    reflexivity.
Defined.

Lemma returns_zero_or_one_witness :
  let r := fst (run Sample.lenient_kernel Sample.zeros 0
                    [(42, Sample.kinfo_image "S" "ttyin")]) in
  (exists b : bool, r = Some (Z.b2z b))
  /\ (forall v, r = Some v -> 0 <= v <= 1).
Proof.
  intro r.
  apply (returns_zero_or_one Sample.ptable Sample.lenient_kernel
           Sample.CTL_KERN Sample.KERN_PROC Sample.KERN_PROC_PID
           Sample.sizeof_kinfo_proc Sample.off_ki_stat Sample.off_ki_wmesg
           Sample.WMESGLEN
           ltac:(vm_compute; lia) ltac:(vm_compute; lia)
           ltac:(vm_compute; lia)
           [(42, Sample.kinfo_image "S" "ttyin")] Sample.zeros 0).
  reflexivity.
Defined.

(** ** The further properties at concrete inputs *)

Lemma result_reads_two_fields_only_witness :
  let imgA := Sample.kinfo_image "S" "ttyin" in
  let imgB := (list_ascii_of_string "xySzttyin" ++ [NUL]
               ++ list_ascii_of_string "abcqqq")%list in
  fst (run Sample.strict_kernel Sample.zeros 42 [(42, imgA)])
  = fst (run Sample.strict_kernel imgA 7 [(7, imgB)]).
Proof.
  intros imgA imgB.
  apply (result_reads_two_fields_only Sample.ptable Sample.strict_kernel
           Sample.CTL_KERN Sample.KERN_PROC Sample.KERN_PROC_PID
           Sample.sizeof_kinfo_proc Sample.off_ki_stat Sample.off_ki_wmesg
           [(42, imgA)] Sample.zeros 42 0 imgA 16 [(42, imgA)]
           [(7, imgB)] imgA 7 0 imgB 16 [(7, imgB)]);
    [reflexivity | reflexivity | lia | lia | reflexivity | reflexivity].
Defined.

Lemma positive_iff_six_bytes_witness :
  let img := (list_ascii_of_string "xySzttyin" ++ [NUL]
              ++ list_ascii_of_string "abcqqq")%list in
  fst (run Sample.strict_kernel Sample.zeros 7 [(7, img)]) = Some 1
  <-> 0 <= 0
      /\ ki_stat Sample.off_ki_stat img = Some "S"%char
      /\ firstn 6 (ki_wmesg Sample.off_ki_wmesg img) = literal "ttyin".
Proof.
  intro img.
  apply (positive_iff_six_bytes Sample.ptable Sample.strict_kernel
           Sample.CTL_KERN Sample.KERN_PROC Sample.KERN_PROC_PID
           Sample.sizeof_kinfo_proc Sample.off_ki_stat Sample.off_ki_wmesg
           [(7, img)] Sample.zeros 7 0 img 16 [(7, img)]).
  reflexivity.
Defined.

Lemma covered_fields_ignore_stack_witness :
  let t : Sample.ptable := [(42, Sample.kinfo_image "R" "ttyin")] in
  run Sample.strict_kernel Sample.zeros 42 t
  = run Sample.strict_kernel (Sample.kinfo_image "S" "ttyin") 42 t.
Proof.
  intro t.
  apply (covered_fields_ignore_stack Sample.ptable Sample.strict_kernel
           Sample.CTL_KERN Sample.KERN_PROC Sample.KERN_PROC_PID
           Sample.sizeof_kinfo_proc Sample.off_ki_stat Sample.off_ki_wmesg
           t Sample.zeros (Sample.kinfo_image "S" "ttyin") 42);
    [reflexivity | reflexivity |].
  right. split; vm_compute; lia.
Defined.

Lemma repeated_call_same_answer_witness :
  let t : Sample.ptable := [(42, Sample.kinfo_image "S" "ttyin")] in
  let first := run Sample.strict_kernel Sample.zeros 42 t in
  let second := run Sample.strict_kernel
                    (Sample.kinfo_image "R" "piperd") 42 (snd first) in
  fst second = fst first /\ snd second = t.
Proof.
  intro t.
  apply (repeated_call_same_answer Sample.ptable Sample.strict_kernel
           Sample.CTL_KERN Sample.KERN_PROC Sample.KERN_PROC_PID
           Sample.sizeof_kinfo_proc Sample.off_ki_stat Sample.off_ki_wmesg
           t Sample.zeros (Sample.kinfo_image "R" "piperd") 42).
  - intros s rq Hnew _. unfold Sample.strict_kernel. rewrite Hnew.
    destruct (rq_name rq) as [|n0 [|n1 [|n2 [|n3 [|n4 r]]]]];
      try reflexivity.
    destruct (Sample.pfind n3 s); reflexivity.
  - reflexivity.
  - reflexivity.
  - right. split; vm_compute; lia.
Defined.

Lemma unwritten_state_not_S_is_false_witness :
  fst (run Sample.lenient_kernel Sample.zeros 42 []) = Some 0.
Proof.
  apply (unwritten_state_not_S_is_false Sample.ptable Sample.lenient_kernel
           Sample.CTL_KERN Sample.KERN_PROC Sample.KERN_PROC_PID
           Sample.sizeof_kinfo_proc Sample.off_ki_stat Sample.off_ki_wmesg
           [] Sample.zeros 42 NUL);
    [vm_compute; lia | reflexivity | discriminate].
Defined.
